(** * Task service: a shallow embedding of [main.py] and its CRUD contract

    The service maps five HTTP operations onto single-row statements against
    one table, [tasks], reached through an ORM session.  The development
    models

    - the table and its id sequence ([Database]);
    - the per-request ORM session ([Session]): the instances it tracks, the
      calls a handler makes on it, and the storage failures it meets;
    - the handlers of [main.py], written in a state-and-exception monad so
      that each line of a handler is one line of its model;
    - the HTTP boundary: request validation against [TaskCreateSchema],
      the [get_db] dependency, and the conversion of a handler's outcome into
      a response.

    Storage-layer exceptions of any cause (a lost connection, an exhausted
    sequence, a constraint violation) are not derived from the table: they are
    an input, the [Faults] of a request.  Integers are unbounded, as Python's
    are. *)

From Stdlib Require Import ZArith List String Bool Lia DecimalString Sorted
  Permutation.
Import ListNotations.

Open Scope string_scope.
Open Scope Z_scope.

(* ================================================================= *)
(** ** Data model *)

(** [class TaskStatus(str, PyEnum)] *)
Inductive TaskStatus : Type :=
| assigned
| inprogress
| completed.

(** [TaskStatus.<member>.value] *)
Definition value (s : TaskStatus) : string :=
  match s with
  | assigned => "assigned"
  | inprogress => "inprogress"
  | completed => "completed"
  end.

(** [TaskStatus(v)]: the member whose value is [v], if there is one. *)
Definition TaskStatus_of_value (v : string) : option TaskStatus :=
  if String.eqb v "assigned" then Some assigned
  else if String.eqb v "inprogress" then Some inprogress
  else if String.eqb v "completed" then Some completed
  else None.

(** A row of table [tasks]: [id] is the primary key, [status] is a plain
    string column. *)
Record Row : Type := mkRow {
  row_id : Z;
  row_title : string;
  row_status : string
}.

(** The relational store: the rows of [tasks] in the order in which an
    unordered [SELECT] scans them, and the next value of the sequence behind
    the auto-assigned primary key.  An [INSERT] appends, an [UPDATE] that
    changes a row writes it anew at the end, a [DELETE] removes rows. *)
Record Database : Type := mkDatabase {
  tasks : list Row;
  tasks_id_seq : Z
}.

(** [class TaskModel(Base)]: an ORM instance.  [id] is [None] until the
    instance has been flushed. *)
Record TaskModel : Type := mkTaskModel {
  TaskModel_id : option Z;
  TaskModel_title : string;
  TaskModel_status : string
}.

(** [class TaskSchema(BaseModel)] *)
Record TaskSchema : Type := mkTaskSchema {
  TaskSchema_id : Z;
  TaskSchema_title : string;
  TaskSchema_status : TaskStatus
}.

(** [class TaskCreateSchema(BaseModel)] *)
Record TaskCreateSchema : Type := mkTaskCreateSchema {
  TaskCreateSchema_title : string;
  TaskCreateSchema_status : TaskStatus
}.

(* ================================================================= *)
(** ** Exceptions *)

Inductive exn : Type :=
| HTTPException (status_code : Z) (detail : string)
| SQLAlchemyError (msg : string).

Definition string_of_Z (z : Z) : string :=
  NilZero.string_of_int (Z.to_int z).

(** [str(e)]: an [HTTPException] prints as its status code and detail, a
    storage exception as its message. *)
Definition str (e : exn) : string :=
  match e with
  | HTTPException c d => (string_of_Z c ++ ": " ++ d)%string
  | SQLAlchemyError m => m
  end.

(* ================================================================= *)
(** ** The ORM session *)

(** The state of an instance in a session. *)
Inductive InstanceState : Type :=
| transient      (* constructed, not added *)
| pending        (* added, INSERT not yet flushed *)
| persistent     (* loaded or flushed, unmodified *)
| dirty          (* persistent with attributes assigned since *)
| to_delete      (* marked by [db.delete] *)
| detached.      (* deleted and committed, or session closed *)

Record Instance : Type := mkInstance {
  attrs : TaskModel;
  state : InstanceState
}.

(** The methods handlers call on [db]. *)
Inductive Call : Type :=
| Query
| Add
| Delete
| Commit
| Refresh
| Rollback.

(** What the storage layer does to the calls of one request that reach it:
    [Some msg] makes the call raise with message [msg]. *)
Record Faults : Type := mkFaults {
  query_raises : option string;
  commit_raises : option string;
  refresh_raises : option string
}.

Definition no_faults : Faults := mkFaults None None None.

(** A session: the database it is bound to, the instances it tracks
    (a Python reference to an instance is its position here), the calls made
    on it so far, and the request's faults. *)
Record Session : Type := mkSession {
  bind : Database;
  identity : list Instance;
  calls : list Call;
  faults : Faults
}.

Definition ref : Type := nat.

(** [SessionLocal()] *)
Definition SessionLocal (F : Faults) (d : Database) : Session :=
  mkSession d [] [] F.

Definition set_bind (d : Database) (s : Session) : Session :=
  mkSession d (identity s) (calls s) (faults s).

Definition set_identity (l : list Instance) (s : Session) : Session :=
  mkSession (bind s) l (calls s) (faults s).

(* ----------------------------------------------------------------- *)
(** *** The monad of handlers: state and exceptions *)

Inductive outcome (A : Type) : Type :=
| Return (a : A)
| Raise (e : exn).

Arguments Return {A} a.
Arguments Raise {A} e.

Definition M (A : Type) : Type := Session -> outcome A * Session.

Definition ret {A} (a : A) : M A := fun s => (Return a, s).

Definition raise {A} (e : exn) : M A := fun s => (Raise e, s).

Definition bindM {A B} (m : M A) (k : A -> M B) : M B :=
  fun s =>
    match m s with
    | (Return a, s') => k a s'
    | (Raise e, s') => (Raise e, s')
    end.

(** [try: body except Exception as e: handler] *)
Definition try_except {A} (body : M A) (handler : exn -> M A) : M A :=
  fun s =>
    match body s with
    | (Return a, s') => (Return a, s')
    | (Raise e, s') => handler e s'
    end.

Declare Scope handler_scope.
Delimit Scope handler_scope with handler.

Notation "x <- m ;; k" := (bindM m (fun x => k))
  (at level 61, m at next level, right associativity) : handler_scope.
Notation "m ;; k" := (bindM m (fun _ => k))
  (at level 61, right associativity) : handler_scope.

Open Scope handler_scope.

(* ----------------------------------------------------------------- *)
(** *** Table operations *)

(** [SELECT ... FROM tasks WHERE tasks.id = task_id LIMIT 1] *)
Definition select_by_id (task_id : Z) (rows : list Row) : option Row :=
  find (fun r => row_id r =? task_id) rows.

(** Whether setting title [t] and status [st] on the row of id [pk] changes
    row [r]. *)
Definition changes (pk : Z) (t st : string) (r : Row) : bool :=
  (row_id r =? pk)
  && negb (String.eqb (row_title r) t && String.eqb (row_status r) st).

(** [UPDATE tasks SET title = t, status = st WHERE tasks.id = pk], as the
    flush issues it.  The ORM writes the attributes whose value differs from
    the loaded one, so a row that already holds [t] and [st] is left alone.
    PostgreSQL writes a changed row as a new tuple, which an unordered
    [SELECT] scans after the rows that were there. *)
Definition update_by_id (pk : Z) (t st : string) (rows : list Row) : list Row :=
  (filter (fun r => negb (changes pk t st r)) rows ++
   map (fun _ => mkRow pk t st) (filter (changes pk t st) rows))%list.

(** [DELETE FROM tasks WHERE tasks.id = pk] *)
Definition delete_by_id (pk : Z) (rows : list Row) : list Row :=
  filter (fun r => negb (row_id r =? pk)) rows.

(** [SELECT ... FROM tasks LIMIT limit OFFSET skip], for a window the
    database accepts. *)
Definition window (skip limit : Z) (rows : list Row) : list Row :=
  firstn (Z.to_nat limit) (skipn (Z.to_nat skip) rows).

(** The values of PostgreSQL's [bigint], the type of [OFFSET] and
    [LIMIT]. *)
Definition bigint (z : Z) : bool :=
  (- 2 ^ 63 <=? z) && (z <? 2 ^ 63).

Definition of_row (r : Row) : TaskModel :=
  mkTaskModel (Some (row_id r)) (row_title r) (row_status r).

(* ----------------------------------------------------------------- *)
(** *** Session methods *)

Definition record (c : Call) : M unit :=
  fun s => (Return tt, mkSession (bind s) (identity s) (calls s ++ [c])%list (faults s)).

(** A call that reaches the database raises when the request's faults say
    so. *)
Definition storage (f : Faults -> option string) : M unit :=
  fun s =>
    match f (faults s) with
    | Some msg => (Raise (SQLAlchemyError msg), s)
    | None => (Return tt, s)
    end.

(** Track a loaded row as a persistent instance and hand out its
    reference. *)
Definition load (r : Row) : M ref :=
  fun s =>
    (Return (List.length (identity s)),
     set_identity (identity s ++ [mkInstance (of_row r) persistent])%list s).

Fixpoint load_all (rows : list Row) : M (list ref) :=
  match rows with
  | [] => ret []
  | r :: rows' =>
      x <- load r ;;
      xs <- load_all rows' ;;
      ret (x :: xs)
  end.

(** [db.query(TaskModel).filter(TaskModel.id == task_id).first()] *)
Definition query_filter_id_first (task_id : Z) : M (option ref) :=
  record Query ;;
  storage query_raises ;;
  fun s =>
    match select_by_id task_id (tasks (bind s)) with
    | None => (Return None, s)
    | Some r => (x <- load r ;; ret (Some x)) s
    end.

(** [db.query(TaskModel).offset(skip).limit(limit).all()].  The values are
    passed to the database as they are; PostgreSQL rejects a value that is
    not a [bigint], a negative [OFFSET] and a negative [LIMIT]. *)
Definition query_offset_limit_all (skip limit : Z) : M (list ref) :=
  record Query ;;
  storage query_raises ;;
  fun s =>
    if negb (bigint skip && bigint limit)
    then (Raise (SQLAlchemyError "bigint out of range"), s)
    else if skip <? 0 then (Raise (SQLAlchemyError "OFFSET must not be negative"), s)
    else if limit <? 0 then (Raise (SQLAlchemyError "LIMIT must not be negative"), s)
    else load_all (window skip limit (tasks (bind s))) s.

(** [TaskModel(title=t, status=st)]: a new transient instance. *)
Definition new_TaskModel (t st : string) : M ref :=
  fun s =>
    (Return (List.length (identity s)),
     set_identity (identity s ++ [mkInstance (mkTaskModel None t st) transient])%list s).

Definition modify (x : ref) (f : Instance -> Instance) : M unit :=
  fun s =>
    (Return tt,
     set_identity
       (firstn x (identity s) ++
        match nth_error (identity s) x with
        | Some i => [f i]
        | None => []
        end ++ skipn (S x) (identity s))%list s).

(** [x.title = t] and [x.status = st]: an assignment makes a persistent
    instance dirty. *)
Definition touched (st : InstanceState) : InstanceState :=
  match st with
  | persistent => dirty
  | _ => st
  end.

Definition set_title (x : ref) (t : string) : M unit :=
  modify x (fun i =>
    mkInstance (mkTaskModel (TaskModel_id (attrs i)) t (TaskModel_status (attrs i)))
               (touched (state i))).

Definition set_status (x : ref) (st : string) : M unit :=
  modify x (fun i =>
    mkInstance (mkTaskModel (TaskModel_id (attrs i)) (TaskModel_title (attrs i)) st)
               (touched (state i))).

(** [db.add(x)] *)
Definition db_add (x : ref) : M unit :=
  record Add ;;
  modify x (fun i =>
    mkInstance (attrs i) match state i with transient => pending | st => st end).

(** [db.delete(x)] *)
Definition db_delete (x : ref) : M unit :=
  record Delete ;;
  modify x (fun i =>
    mkInstance (attrs i)
      match state i with
      | persistent | dirty => to_delete
      | st => st
      end).

(** The flush of one instance: the statement its state calls for, and the
    instance as the flush leaves it. *)
Definition flush_instance (d : Database) (i : Instance) : Database * Instance :=
  match state i with
  | pending =>
      let pk := tasks_id_seq d in
      let a := attrs i in
      (mkDatabase (tasks d ++ [mkRow pk (TaskModel_title a) (TaskModel_status a)])%list
                  (pk + 1),
       mkInstance (mkTaskModel (Some pk) (TaskModel_title a) (TaskModel_status a))
                  persistent)
  | dirty =>
      let a := attrs i in
      match TaskModel_id a with
      | Some pk =>
          (mkDatabase
             (update_by_id pk (TaskModel_title a) (TaskModel_status a) (tasks d))
             (tasks_id_seq d),
           mkInstance a persistent)
      | None => (d, i)
      end
  | to_delete =>
      match TaskModel_id (attrs i) with
      | Some pk =>
          (mkDatabase (delete_by_id pk (tasks d)) (tasks_id_seq d),
           mkInstance (attrs i) detached)
      | None => (d, i)
      end
  | _ => (d, i)
  end.

Fixpoint flush (d : Database) (l : list Instance) : Database * list Instance :=
  match l with
  | [] => (d, [])
  | i :: l' =>
      let (d1, i') := flush_instance d i in
      let (d2, l'') := flush d1 l' in
      (d2, i' :: l'')
  end.

(** [db.commit()]: flush, then commit.  A commit that raises is one that
    fails before its statements take effect (a lost connection, a rejected
    statement): the table and the sequence are as they were.  A failure
    between a flushed [INSERT] and the [COMMIT], which would leave a value of
    the sequence spent, is not among the faults. *)
Definition db_commit : M unit :=
  record Commit ;;
  storage commit_raises ;;
  fun s =>
    let (d, l) := flush (bind s) (identity s) in
    (Return tt, set_identity l (set_bind d s)).

(** [db.refresh(x)]: reload the attributes of [x] from its row. *)
Definition db_refresh (x : ref) : M unit :=
  record Refresh ;;
  storage refresh_raises ;;
  fun s =>
    match nth_error (identity s) x with
    | Some i =>
        match TaskModel_id (attrs i) with
        | Some pk =>
            match select_by_id pk (tasks (bind s)) with
            | Some r => modify x (fun i => mkInstance (of_row r) (state i)) s
            | None => (Raise (SQLAlchemyError "Could not refresh instance"), s)
            end
        | None => (Raise (SQLAlchemyError "Instance is not persistent within this Session"), s)
        end
    | None => (Raise (SQLAlchemyError "Instance is not persistent within this Session"), s)
    end.

(** [db.rollback()]: what was not flushed is dropped; the table is the one
    of the last commit. *)
Definition rollback_instance (i : Instance) : Instance :=
  mkInstance (attrs i)
    match state i with
    | pending => transient
    | dirty | to_delete => persistent
    | st => st
    end.

Definition db_rollback : M unit :=
  record Rollback ;;
  fun s => (Return tt, set_identity (map rollback_instance (identity s)) s).

(** [db.close()] *)
Definition db_close (s : Session) : Session :=
  set_identity (map (fun i => mkInstance (attrs i) detached) (identity s)) s.

(* ================================================================= *)
(** ** Handlers *)

(** [def create_task(task, db)] *)
Definition create_task (task : TaskCreateSchema) : M ref :=
  try_except
    (db_task <- new_TaskModel (TaskCreateSchema_title task)
                              (value (TaskCreateSchema_status task)) ;;
     db_add db_task ;;
     db_commit ;;
     db_refresh db_task ;;
     ret db_task)
    (fun e =>
       db_rollback ;;
       raise (HTTPException 500
                ("An error occurred while creating the task: " ++ str e)%string)).

(** [def read_tasks(skip, limit, db)] *)
Definition read_tasks (skip limit : Z) : M (list ref) :=
  tasks <- query_offset_limit_all skip limit ;;
  ret tasks.

(** [def read_task(task_id, db)] *)
Definition read_task (task_id : Z) : M ref :=
  task <- query_filter_id_first task_id ;;
  match task with
  | None => raise (HTTPException 404 "Task not found")
  | Some task => ret task
  end.

(** [def update_task(task_id, task, db)] *)
Definition update_task (task_id : Z) (task : TaskCreateSchema) : M ref :=
  try_except
    (db_task <- query_filter_id_first task_id ;;
     match db_task with
     | None => raise (HTTPException 404 "Task not found")
     | Some db_task =>
         set_title db_task (TaskCreateSchema_title task) ;;
         set_status db_task (value (TaskCreateSchema_status task)) ;;
         db_commit ;;
         db_refresh db_task ;;
         ret db_task
     end)
    (fun e =>
       db_rollback ;;
       raise (HTTPException 500
                ("An error occurred while updating the task: " ++ str e)%string)).

(** [def delete_task(task_id, db)] *)
Definition delete_task (task_id : Z) : M ref :=
  task <- query_filter_id_first task_id ;;
  match task with
  | None => raise (HTTPException 404 "Task not found")
  | Some task =>
      db_delete task ;;
      db_commit ;;
      ret task
  end.

(* ================================================================= *)
(** ** The HTTP boundary *)

Inductive Content : Type :=
| task_json (t : TaskSchema)
| tasks_json (l : list TaskSchema)
| detail_json (detail : string)
| validation_errors
| plain_text (s : string)
| empty.

Record Response : Type := mkResponse {
  status_code : Z;
  content : Content
}.

(** What the server answers when an exception other than [HTTPException]
    leaves a handler. *)
Definition internal_server_error : Response :=
  mkResponse 500 (plain_text "Internal Server Error").

(** [async def options_task(task_id)] *)
Definition options_task (task_id : Z) : Response :=
  mkResponse 204 empty.

(** The body of a [POST] or [PUT], as received, for the bodies in which
    each of the two fields is absent or carries a string.  A body that is not
    a JSON object, or that gives a field [null] or a value that is not a
    string, has no counterpart here. *)
Record JSONBody : Type := mkJSONBody {
  json_title : option string;
  json_status : option string
}.

(** Validation of a request body against [TaskCreateSchema]: [title] is
    required, [status] defaults to [TaskStatus.assigned] and must otherwise be
    the value of a member. *)
Definition parse_TaskCreateSchema (b : JSONBody) : option TaskCreateSchema :=
  match json_title b with
  | None => None
  | Some t =>
      match json_status b with
      | None => Some (mkTaskCreateSchema t assigned)
      | Some v =>
          match TaskStatus_of_value v with
          | Some st => Some (mkTaskCreateSchema t st)
          | None => None
          end
      end
  end.

(** [TaskSchema.from_orm(o)], as [response_model=TaskSchema] with
    [orm_mode = True] applies it to what a handler returns. *)
Definition from_orm (o : TaskModel) : option TaskSchema :=
  match TaskModel_id o, TaskStatus_of_value (TaskModel_status o) with
  | Some i, Some st => Some (mkTaskSchema i (TaskModel_title o) st)
  | _, _ => None
  end.

Definition deref (s : Session) (x : ref) : option TaskModel :=
  option_map attrs (nth_error (identity s) x).

Definition serialize_task (s : Session) (x : ref) : option TaskSchema :=
  match deref s x with
  | Some o => from_orm o
  | None => None
  end.

Fixpoint serialize_tasks (s : Session) (xs : list ref) : option (list TaskSchema) :=
  match xs with
  | [] => Some []
  | x :: xs' =>
      match serialize_task s x, serialize_tasks s xs' with
      | Some t, Some ts => Some (t :: ts)
      | _, _ => None
      end
  end.

(** [def get_db()]: a session per request, closed when the handler is
    left, however it is left. *)
Definition get_db {A} (F : Faults) (endpoint : M A) (d : Database)
  : outcome A * Session :=
  let db := SessionLocal F d in
  let (r, db') := endpoint db in
  (r, db_close db').

(** From the outcome of a handler to the response. *)
Definition respond {A} (ser : Session -> A -> option Content)
    (r : outcome A * Session) : Response :=
  match r with
  | (Return a, s) =>
      match ser s a with
      | Some c => mkResponse 200 c
      | None => internal_server_error
      end
  | (Raise (HTTPException c d), _) => mkResponse c (detail_json d)
  | (Raise _, _) => internal_server_error
  end.

Definition one (s : Session) (x : ref) : option Content :=
  option_map task_json (serialize_task s x).

Definition many (s : Session) (xs : list ref) : option Content :=
  option_map tasks_json (serialize_tasks s xs).

(** A route: the dependency, the handler, the response; the session is kept
    for what it recorded. *)
Definition route {A} (ser : Session -> A -> option Content) (F : Faults)
    (endpoint : M A) (d : Database) : Response * Session :=
  let r := get_db F endpoint d in
  (respond ser r, snd r).

(** A body that does not validate is answered before the handler is
    called. *)
Definition unprocessable (F : Faults) (d : Database) : Response * Session :=
  (mkResponse 422 validation_errors, db_close (SessionLocal F d)).

(** The requests the routes accept: their path and query parameters are
    integers, and an [OPTIONS] is a bare one, without the [Origin] and
    [Access-Control-Request-Method] headers of a CORS preflight (a preflight
    is answered by [CORSMiddleware] and does not reach [options_task]). *)
Inductive Request : Type :=
| POST_add_task (body : JSONBody)
| GET_get_tasks (skip limit : option Z)
| GET_tasks (task_id : Z)
| PUT_task (task_id : Z) (body : JSONBody)
| DELETE_task (task_id : Z)
| OPTIONS_task (task_id : Z).

Definition default (d : Z) (o : option Z) : Z :=
  match o with
  | Some z => z
  | None => d
  end.

(** The routes of the application, below its middleware: one request
    against the database, under the faults the storage layer has in store for
    it. *)
Definition app (F : Faults) (req : Request) (d : Database) : Response * Session :=
  match req with
  | POST_add_task body =>
      match parse_TaskCreateSchema body with
      | Some task => route one F (create_task task) d
      | None => unprocessable F d
      end
  | GET_get_tasks skip limit =>
      route many F (read_tasks (default 0 skip) (default 100 limit)) d
  | GET_tasks task_id =>
      route one F (read_task task_id) d
  | PUT_task task_id body =>
      match parse_TaskCreateSchema body with
      | Some task => route one F (update_task task_id task) d
      | None => unprocessable F d
      end
  | DELETE_task task_id =>
      route one F (delete_task task_id) d
  | OPTIONS_task task_id =>
      (options_task task_id, SessionLocal F d)
  end.

Definition response (F : Faults) (req : Request) (d : Database) : Response :=
  fst (app F req d).

(** The database a request leaves behind. *)
Definition serve (F : Faults) (req : Request) (d : Database) : Database :=
  bind (snd (app F req d)).

(** A run of requests, each with its faults. *)
Fixpoint run (reqs : list (Faults * Request)) (d : Database) : Database :=
  match reqs with
  | [] => d
  | (F, req) :: reqs' => run reqs' (serve F req d)
  end.

(** The databases a run goes through, the first one included. *)
Fixpoint history (reqs : list (Faults * Request)) (d : Database) : list Database :=
  match reqs with
  | [] => [d]
  | (F, req) :: reqs' => d :: history reqs' (serve F req d)
  end.

(** The empty table of a fresh installation. *)
Definition create_all : Database := mkDatabase [] 1.

(** A database to try the operations on. *)
Definition two_tasks : Database :=
  mkDatabase [mkRow 1 "write spec" "assigned"; mkRow 2 "review" "completed"] 3.

(* ================================================================= *)
(** ** Properties of the store *)

(** Every id in the table was handed out by the sequence. *)
Definition seq_above (d : Database) : Prop :=
  Forall (fun r => row_id r < tasks_id_seq d) (tasks d).

(** Every stored status is the value of a member of [TaskStatus]. *)
Definition statuses_valid (d : Database) : Prop :=
  Forall (fun r => exists st, row_status r = value st) (tasks d).


(** No two rows have the same id. *)
Definition pk_unique (d : Database) : Prop :=
  NoDup (map row_id (tasks d)).

Definition well_formed (d : Database) : Prop :=
  seq_above d /\ statuses_valid d /\ pk_unique d.



(** An id that is not in the table and will not be handed out again. *)
Definition retired (pk : Z) (d : Database) : Prop :=
  ~ In pk (map row_id (tasks d)) /\ pk < tasks_id_seq d.

(** The tasks with an id different from [t]. *)
Definition others (t : Z) (d : Database) : list Row :=
  filter (fun r => negb (row_id r =? t)) (tasks d).

(** The row a task on the wire stands for. *)
Definition row_of_schema (t : TaskSchema) : Row :=
  mkRow (TaskSchema_id t) (TaskSchema_title t) (value (TaskSchema_status t)).

(** What a request can do to the database. *)
Inductive effect (d : Database) : Database -> Prop :=
| effect_none : effect d d
| effect_insert (t : string) (st : TaskStatus) :
    effect d (mkDatabase (tasks d ++ [mkRow (tasks_id_seq d) t (value st)])%list
                         (tasks_id_seq d + 1))
| effect_update (pk : Z) (t : string) (st : TaskStatus) :
    effect d (mkDatabase (update_by_id pk t (value st) (tasks d)) (tasks_id_seq d))
| effect_delete (pk : Z) :
    effect d (mkDatabase (delete_by_id pk (tasks d)) (tasks_id_seq d)).

(** Loading rows tracks them in order, after the instances already
    there. *)
Lemma load_all_spec (rows : list Row) (s : Session) :
  load_all rows s =
  (Return (seq (List.length (identity s)) (List.length rows)),
   set_identity
     (identity s ++ map (fun r => mkInstance (of_row r) persistent) rows)%list s).
Proof.
  revert s. induction rows as [|r rows IH]; intros [d l c F].
  - cbn. unfold ret, set_identity. cbn. now rewrite app_nil_r.
  - cbn. unfold bindM, load. cbn. rewrite IH. cbn. unfold ret, set_identity. cbn.
    rewrite length_app, <- app_assoc. cbn.
    now replace (List.length l + 1)%nat with (S (List.length l)) by lia.
Qed.

#[local] Arguments select_by_id : simpl never.
#[local] Arguments update_by_id : simpl never.
#[local] Arguments delete_by_id : simpl never.
#[local] Arguments window : simpl never.
#[local] Arguments bigint : simpl never.
#[local] Arguments load_all : simpl never.
#[local] Arguments TaskStatus_of_value : simpl never.
#[local] Arguments value : simpl never.
#[local] Arguments str : simpl never.
#[local] Arguments String.append : simpl never.
#[local] Arguments Z.ltb : simpl never.
#[local] Arguments Z.add : simpl never.
#[local] Arguments default : simpl never.

(** Unfold a route down to the table operations, then split on whatever
    the evaluation waits for. *)
Ltac unfold_route :=
  cbv [response serve app route unprocessable get_db respond one many
       create_task read_tasks read_task update_task delete_task options_task
       try_except bindM ret raise record storage load new_TaskModel modify
       set_title set_status db_add db_delete db_commit db_refresh db_rollback
       query_filter_id_first query_offset_limit_all
       SessionLocal set_bind set_identity db_close] in *.

Ltac split_scrutinee :=
  match goal with
  | |- context [match select_by_id ?a ?b with _ => _ end] =>
      let E := fresh "E" in destruct (select_by_id a b) eqn:E
  | |- context [match parse_TaskCreateSchema ?b with _ => _ end] =>
      let E := fresh "E" in destruct (parse_TaskCreateSchema b) eqn:E
  | |- context [bigint ?a] =>
      let E := fresh "E" in destruct (bigint a) eqn:E
  | |- context [if (?a <? ?b)%Z then _ else _] =>
      let E := fresh "E" in destruct (a <? b)%Z eqn:E
  | |- context [load_all ?rows ?s] => rewrite (load_all_spec rows s)
  end.

Ltac crunch := unfold_route; cbn; repeat (split_scrutinee; unfold_route; cbn).

Lemma serve_effect (F : Faults) (req : Request) (d : Database) :
  effect d (serve F req d).
Proof.
  destruct F as [q c r]. destruct d as [rows n].
  destruct req as [body|skip limit|task_id|task_id body|task_id|task_id].
  - destruct q, c, r; crunch; try apply effect_none; apply effect_insert.
  - destruct q, c, r; crunch; apply effect_none.
  - destruct q, c, r; crunch; apply effect_none.
  - destruct q, c, r; crunch; try apply effect_none; apply effect_update.
  - destruct q, c, r; crunch; try apply effect_none; apply effect_delete.
  - destruct q, c, r; crunch; apply effect_none.
Qed.


(* ----------------------------------------------------------------- *)
(** *** The enumeration *)

Lemma TaskStatus_of_value_value (st : TaskStatus) :
  TaskStatus_of_value (value st) = Some st.
Proof. destruct st; reflexivity. Qed.

Lemma TaskStatus_of_value_Some (v : string) (st : TaskStatus) :
  TaskStatus_of_value v = Some st -> v = value st.
Proof.
  unfold TaskStatus_of_value.
  destruct (String.eqb_spec v "assigned") as [->|_]; [intros [= <-]; reflexivity|].
  destruct (String.eqb_spec v "inprogress") as [->|_]; [intros [= <-]; reflexivity|].
  destruct (String.eqb_spec v "completed") as [->|_]; [intros [= <-]; reflexivity|].
  discriminate.
Qed.

Lemma TaskStatus_of_value_None (v : string) :
  ~ In v ["assigned"; "inprogress"; "completed"] -> TaskStatus_of_value v = None.
Proof.
  intros H. destruct (TaskStatus_of_value v) as [st|] eqn:E; [|reflexivity].
  apply TaskStatus_of_value_Some in E. subst v.
  exfalso. apply H. destruct st; cbv; auto.
Qed.

(* ----------------------------------------------------------------- *)
(** *** The table operations *)

Lemma select_by_id_Some (task_id : Z) (rows : list Row) (r : Row) :
  select_by_id task_id rows = Some r -> In r rows /\ row_id r = task_id.
Proof.
  unfold select_by_id. intros H. apply find_some in H.
  destruct H as [H1 H2]. split; [exact H1|]. now apply Z.eqb_eq.
Qed.

Lemma select_by_id_None (task_id : Z) (rows : list Row) :
  select_by_id task_id rows = None <-> ~ In task_id (map row_id rows).
Proof.
  unfold select_by_id. induction rows as [|r rows IH]; cbn.
  - tauto.
  - destruct (Z.eqb_spec (row_id r) task_id) as [e|ne].
    + split; [discriminate|]. intros H. exfalso. apply H. now left.
    + rewrite IH. tauto.
Qed.

Lemma select_by_id_In (task_id : Z) (rows : list Row) :
  In task_id (map row_id rows) -> exists r, select_by_id task_id rows = Some r.
Proof.
  intros H. destruct (select_by_id task_id rows) as [r|] eqn:E.
  - now exists r.
  - apply select_by_id_None in E. contradiction.
Qed.

Lemma changes_true (pk : Z) (t st : string) (r : Row) :
  changes pk t st r = true -> row_id r = pk.
Proof.
  unfold changes. intros H. apply andb_prop in H. now apply Z.eqb_eq.
Qed.

Lemma changes_false (pk : Z) (t st : string) (r : Row) :
  changes pk t st r = false -> row_id r = pk -> r = mkRow pk t st.
Proof.
  unfold changes. intros H E. rewrite (proj2 (Z.eqb_eq _ _) E) in H. cbn in H.
  apply negb_false_iff, andb_prop in H. destruct H as [H1 H2].
  apply String.eqb_eq in H1, H2. destruct r. cbn in *. congruence.
Qed.

Lemma changes_new (pk : Z) (t st : string) :
  changes pk t st (mkRow pk t st) = false.
Proof. unfold changes. cbn. now rewrite Z.eqb_refl, !String.eqb_refl. Qed.

(** A row of the updated table is a row that was there and that the
    update leaves alone, or the new row, written for a row of that id. *)
Lemma In_update_by_id (pk : Z) (t st : string) (rows : list Row) (r : Row) :
  In r (update_by_id pk t st rows) ->
  (In r rows /\ changes pk t st r = false)
  \/ (r = mkRow pk t st /\ In pk (map row_id rows)).
Proof.
  unfold update_by_id. intros H. apply in_app_or in H. destruct H as [H|H].
  - apply filter_In in H. destruct H as [H1 H2]. left. split; [exact H1|].
    now apply negb_true_iff.
  - apply in_map_iff in H. destruct H as [r0 [<- H]].
    apply filter_In in H. destruct H as [H1 H2]. right. split; [reflexivity|].
    apply in_map_iff. exists r0. split; [now apply (changes_true pk t st)|exact H1].
Qed.

(** The ids of the updated table are the ids of the table, in another
    order. *)
Lemma ids_update_by_id (pk : Z) (t st : string) (rows : list Row) :
  Permutation (map row_id (update_by_id pk t st rows)) (map row_id rows).
Proof.
  unfold update_by_id. induction rows as [|r rows IH]; cbn.
  - constructor.
  - destruct (changes pk t st r) eqn:C; cbn.
    + rewrite map_app in *. cbn. rewrite (changes_true _ _ _ _ C).
      apply Permutation_sym, Permutation_cons_app, Permutation_sym, IH.
    + now apply perm_skip.
Qed.

Lemma select_update_by_id (pk : Z) (t st : string) (rows : list Row) :
  In pk (map row_id rows) ->
  select_by_id pk (update_by_id pk t st rows) = Some (mkRow pk t st).
Proof.
  intros I. destruct (select_by_id pk (update_by_id pk t st rows)) as [r|] eqn:E.
  - destruct (select_by_id_Some _ _ _ E) as [H K]. f_equal.
    destruct (In_update_by_id _ _ _ _ _ H) as [[_ C]|[-> _]]; [|reflexivity].
    now apply changes_false.
  - apply select_by_id_None in E. exfalso. apply E.
    eapply Permutation_in; [apply Permutation_sym, ids_update_by_id|exact I].
Qed.

Lemma select_delete_by_id (pk : Z) (rows : list Row) :
  select_by_id pk (delete_by_id pk rows) = None.
Proof.
  apply select_by_id_None. unfold delete_by_id. intros H.
  apply in_map_iff in H. destruct H as [r [H1 H2]].
  apply filter_In in H2. destruct H2 as [_ H2].
  rewrite H1, Z.eqb_refl in H2. discriminate.
Qed.

Lemma select_inserted (pk : Z) (t st : string) (rows : list Row) :
  ~ In pk (map row_id rows) ->
  select_by_id pk (rows ++ [mkRow pk t st]) = Some (mkRow pk t st).
Proof.
  unfold select_by_id. induction rows as [|r rows IH]; cbn.
  - intros _. now rewrite Z.eqb_refl.
  - intros H. destruct (Z.eqb_spec (row_id r) pk) as [e|ne].
    + exfalso. apply H. now left.
    + apply IH. tauto.
Qed.

Lemma delete_update_by_id (pk : Z) (t st : string) (rows : list Row) :
  delete_by_id pk (update_by_id pk t st rows) = delete_by_id pk rows.
Proof.
  unfold delete_by_id, update_by_id. rewrite filter_app.
  replace (filter _ (map _ (filter (changes pk t st) rows))) with (@nil Row).
  - rewrite app_nil_r. induction rows as [|r rows IH]; cbn; [reflexivity|].
    unfold changes at 1. destruct (Z.eqb_spec (row_id r) pk) as [e|ne]; cbn.
    + destruct (negb (_ && _)); cbn; [exact IH|].
      rewrite (proj2 (Z.eqb_eq _ _) e). cbn. exact IH.
    + destruct (Z.eqb_spec (row_id r) pk) as [e|_]; [contradiction|].
      cbn. now rewrite IH.
  - induction (filter (changes pk t st) rows) as [|r l IH]; cbn; [reflexivity|].
    rewrite Z.eqb_refl. cbn. exact IH.
Qed.

Lemma delete_delete_by_id (pk : Z) (rows : list Row) :
  delete_by_id pk (delete_by_id pk rows) = delete_by_id pk rows.
Proof.
  unfold delete_by_id. induction rows as [|r rows IH]; cbn.
  - reflexivity.
  - destruct (negb (row_id r =? pk)) eqn:E; cbn.
    + now rewrite E, IH.
    + exact IH.
Qed.

Lemma In_delete_by_id (pk : Z) (rows : list Row) (r : Row) :
  In r (delete_by_id pk rows) -> In r rows.
Proof. unfold delete_by_id. intros H. now apply filter_In in H. Qed.

(* ----------------------------------------------------------------- *)
(** *** Invariants of the database *)

Lemma effect_seq_le (d d' : Database) :
  effect d d' -> tasks_id_seq d <= tasks_id_seq d'.
Proof. intros H. inversion H; cbn; lia. Qed.

Lemma effect_seq_above (d d' : Database) :
  effect d d' -> seq_above d -> seq_above d'.
Proof.
  unfold seq_above. intros H A. inversion H; subst; cbn.
  - exact A.
  - apply Forall_app. split.
    + eapply Forall_impl; [|exact A]. cbn. intros; lia.
    + constructor; [cbn; lia|constructor].
  - rewrite Forall_forall in *. intros r Hr.
    destruct (In_update_by_id _ _ _ _ _ Hr) as [[I _]|[-> I]]; [now apply A|].
    apply in_map_iff in I. destruct I as [r0 [E Hr0]].
    specialize (A r0 Hr0). cbn. lia.
  - rewrite Forall_forall in *. intros r Hr.
    apply A. eapply In_delete_by_id. exact Hr.
Qed.

Lemma effect_statuses_valid (d d' : Database) :
  effect d d' -> statuses_valid d -> statuses_valid d'.
Proof.
  unfold statuses_valid. intros H A. inversion H; subst; cbn.
  - exact A.
  - apply Forall_app. split; [exact A|].
    constructor; [now exists st|constructor].
  - rewrite Forall_forall in *. intros r Hr.
    destruct (In_update_by_id _ _ _ _ _ Hr) as [[I _]|[-> _]]; [now apply A|].
    now exists st.
  - rewrite Forall_forall in *. intros r Hr.
    apply A. eapply In_delete_by_id. exact Hr.
Qed.




Lemma NoDup_ids_delete (pk : Z) (rows : list Row) :
  NoDup (map row_id rows) -> NoDup (map row_id (delete_by_id pk rows)).
Proof.
  unfold delete_by_id. induction rows as [|r rows IH]; cbn; intros D.
  - constructor.
  - inversion D as [|? ? N D']; subst.
    destruct (negb (row_id r =? pk)); cbn; [|now apply IH].
    constructor; [|now apply IH].
    intros I. apply N. apply in_map_iff in I. destruct I as [r0 [E Hr0]].
    apply filter_In in Hr0. apply in_map_iff. exists r0. tauto.
Qed.

Lemma effect_pk_unique (d d' : Database) :
  effect d d' -> seq_above d -> pk_unique d -> pk_unique d'.
Proof.
  unfold pk_unique, seq_above. intros H A D. inversion H; subst; cbn.
  - exact D.
  - rewrite map_app. cbn.
    apply (Permutation_NoDup (l := tasks_id_seq d :: map row_id (tasks d))).
    + apply Permutation_cons_append.
    + constructor; [|exact D]. intros I. rewrite Forall_forall in A.
      apply in_map_iff in I. destruct I as [r [E Hr]]. specialize (A r Hr). lia.
  - eapply Permutation_NoDup; [apply Permutation_sym, ids_update_by_id|exact D].
  - now apply NoDup_ids_delete.
Qed.

Lemma effect_well_formed (d d' : Database) :
  effect d d' -> well_formed d -> well_formed d'.
Proof.
  intros H [A [V S]]. repeat split.
  - now apply (effect_seq_above d).
  - now apply (effect_statuses_valid d).
  - now apply (effect_pk_unique d).
Qed.

Lemma effect_retired (pk : Z) (d d' : Database) :
  effect d d' -> retired pk d -> retired pk d'.
Proof.
  unfold retired. intros H [N B]. inversion H; subst; cbn.
  - tauto.
  - split; [|lia]. rewrite map_app, in_app_iff. cbn. intros [I|[I|[]]]; [tauto|lia].
  - split; [|exact B]. intros I. apply N.
    eapply Permutation_in; [apply ids_update_by_id|exact I].
  - split; [|exact B]. intros I. apply N.
    apply in_map_iff in I. destruct I as [r [E Hr]].
    apply in_map_iff. exists r. split; [exact E|]. eapply In_delete_by_id. exact Hr.
Qed.

Lemma run_well_formed (reqs : list (Faults * Request)) (d : Database) :
  well_formed d -> well_formed (run reqs d).
Proof.
  revert d. induction reqs as [|[F req] reqs IH]; intros d W; cbn.
  - exact W.
  - apply IH. eapply effect_well_formed; [apply serve_effect|exact W].
Qed.

Lemma create_all_well_formed : well_formed create_all.
Proof. repeat split; constructor. Qed.

(** Every database the service reaches from the empty table is well
    formed. *)
Lemma reachable_well_formed (reqs : list (Faults * Request)) :
  well_formed (run reqs create_all).
Proof. apply run_well_formed, create_all_well_formed. Qed.


Lemma run_seq_above (reqs : list (Faults * Request)) (d : Database) :
  seq_above d -> seq_above (run reqs d).
Proof.
  revert d. induction reqs as [|[F req] reqs IH]; intros d W; cbn.
  - exact W.
  - apply IH. eapply effect_seq_above; [apply serve_effect|exact W].
Qed.

Lemma run_retired (pk : Z) (reqs : list (Faults * Request)) (d : Database) :
  retired pk d -> retired pk (run reqs d).
Proof.
  revert d. induction reqs as [|[F req] reqs IH]; intros d W; cbn.
  - exact W.
  - apply IH. eapply effect_retired; [apply serve_effect|exact W].
Qed.

Lemma run_seq_le (reqs : list (Faults * Request)) (d : Database) :
  tasks_id_seq d <= tasks_id_seq (run reqs d).
Proof.
  revert d. induction reqs as [|[F req] reqs IH]; intros d; cbn.
  - lia.
  - specialize (IH (serve F req d)).
    pose proof (effect_seq_le _ _ (serve_effect F req d)). lia.
Qed.

(** Along a run from a database whose ids are below the sequence, every
    id ever stored is below the sequence at the end of the run. *)
Lemma history_below (reqs : list (Faults * Request)) (d d' : Database) :
  seq_above d -> In d' (history reqs d) ->
  Forall (fun r => row_id r < tasks_id_seq (run reqs d)) (tasks d').
Proof.
  revert d. induction reqs as [|[F req] reqs IH]; intros d A I; cbn in *.
  - destruct I as [<-|[]]. exact A.
  - destruct I as [<-|I].
    + eapply Forall_impl; [|exact A]. cbn. intros r Hr.
      pose proof (run_seq_le reqs (serve F req d)).
      pose proof (effect_seq_le _ _ (serve_effect F req d)). lia.
    + apply IH; [|exact I]. eapply effect_seq_above; [apply serve_effect|exact A].
Qed.

(* ================================================================= *)
(** ** The operations *)

(** The example sequence of the specification: create, update, delete,
    then a read that finds nothing. *)
Example example_sequence :
  let post := POST_add_task (mkJSONBody (Some "write spec") None) in
  let put := PUT_task 1 (mkJSONBody (Some "write spec") (Some "inprogress")) in
  let d1 := serve no_faults post create_all in
  let d2 := serve no_faults put d1 in
  let d3 := serve no_faults (DELETE_task 1) d2 in
  response no_faults post create_all =
    mkResponse 200 (task_json (mkTaskSchema 1 "write spec" assigned))
  /\ response no_faults put d1 =
     mkResponse 200 (task_json (mkTaskSchema 1 "write spec" inprogress))
  /\ response no_faults (DELETE_task 1) d2 =
     mkResponse 200 (task_json (mkTaskSchema 1 "write spec" inprogress))
  /\ response no_faults (GET_tasks 1) d3 =
     mkResponse 404 (detail_json "Task not found")
  /\ response no_faults (OPTIONS_task 1) d3 = mkResponse 204 empty.
Proof. cbv zeta. repeat split; reflexivity. Qed.

(** C5.  [GET /tasks/{task_id}] answers with the matching task when a row
    with that id exists, and with 404 "Task not found" exactly when no row
    has that id; whatever the storage layer does, a 404 means that no row
    matches, and the table is left as it was. *)
Theorem read_task_matching_or_404 (task_id : Z) (d : Database) :
  (forall r st,
      select_by_id task_id (tasks d) = Some r -> row_status r = value st ->
      response no_faults (GET_tasks task_id) d =
      mkResponse 200 (task_json (mkTaskSchema task_id (row_title r) st)))
  /\ (response no_faults (GET_tasks task_id) d =
      mkResponse 404 (detail_json "Task not found")
      <-> ~ In task_id (map row_id (tasks d)))
  /\ (forall F, status_code (response F (GET_tasks task_id) d) = 404 ->
                ~ In task_id (map row_id (tasks d)))
  /\ (forall F, serve F (GET_tasks task_id) d = d).
Proof.
  destruct d as [rows n]. cbn [tasks]. repeat split.
  - intros r st E V. destruct (select_by_id_Some _ _ _ E) as [_ I].
    unfold_route; cbn. rewrite E. cbn.
    unfold serialize_task, deref, from_orm. cbn.
    now rewrite V, TaskStatus_of_value_value, I.
  - intros H. apply select_by_id_None. revert H.
    crunch; [|reflexivity].
    unfold serialize_task, deref, from_orm. cbn.
    destruct (TaskStatus_of_value (row_status r)); discriminate.
  - intros H. apply select_by_id_None in H. unfold_route; cbn. now rewrite H.
  - intros [[q|] c r0]; crunch; try discriminate.
    + unfold serialize_task, deref, from_orm. cbn.
      destruct (TaskStatus_of_value (row_status r)); discriminate.
    + intros _. now apply select_by_id_None.
  - intros [[q|] c r0]; crunch; reflexivity.
Qed.

Lemma read_task_matching_or_404_witness :
  response no_faults (GET_tasks 2) two_tasks =
  mkResponse 200 (task_json (mkTaskSchema 2 "review" completed))
  /\ response no_faults (GET_tasks 7) two_tasks =
     mkResponse 404 (detail_json "Task not found").
Proof.
  split.
  - apply (proj1 (read_task_matching_or_404 2 two_tasks)
             (mkRow 2 "review" "completed") completed); reflexivity.
  - apply (proj1 (proj2 (read_task_matching_or_404 7 two_tasks))).
    cbn. intros [H|[H|[]]]; discriminate.
Defined.

(** C1.  What [PUT /task/{task_id}] does for an id without a row: the 404
    raised inside the [try] is caught by the handler's own
    [except Exception], the session is rolled back, and the answer is the 500
    of a storage failure, its detail quoting the 404.  Nothing is added,
    assigned, deleted or committed, and the database is left as it was. *)
Theorem update_task_missing_row_is_500 (task_id : Z) (body : JSONBody)
    (task : TaskCreateSchema) (d : Database) :
  parse_TaskCreateSchema body = Some task ->
  ~ In task_id (map row_id (tasks d)) ->
  response no_faults (PUT_task task_id body) d =
    mkResponse 500
      (detail_json "An error occurred while updating the task: 404: Task not found")
  /\ calls (snd (app no_faults (PUT_task task_id body) d)) = [Query; Rollback]
  /\ identity (snd (app no_faults (PUT_task task_id body) d)) = []
  /\ serve no_faults (PUT_task task_id body) d = d.
Proof.
  intros P N. apply select_by_id_None in N. destruct d as [rows n].
  unfold_route; cbn in *. rewrite P. cbn. rewrite N. cbn. auto.
Qed.

Lemma update_task_missing_row_is_500_witness :
  response no_faults (PUT_task 1 (mkJSONBody (Some "x") (Some "assigned"))) create_all =
    mkResponse 500
      (detail_json "An error occurred while updating the task: 404: Task not found").
Proof.
  apply (update_task_missing_row_is_500 1 (mkJSONBody (Some "x") (Some "assigned"))
           (mkTaskCreateSchema "x" assigned) create_all).
  - reflexivity.
  - cbn. tauto.
Defined.

(** C3.  For an id that has a row, [PUT /task/{task_id}] with a body of title
    [t] and status [st] answers with the record of that id, title [t] and
    status [st], and a [GET /tasks/{task_id}] that follows answers with the
    same record, whatever the row held before. *)
Theorem update_then_read_is_replacement (task_id : Z) (t : string)
    (st : TaskStatus) (d : Database) :
  In task_id (map row_id (tasks d)) ->
  response no_faults (PUT_task task_id (mkJSONBody (Some t) (Some (value st)))) d =
    mkResponse 200 (task_json (mkTaskSchema task_id t st))
  /\ response no_faults (GET_tasks task_id)
       (serve no_faults (PUT_task task_id (mkJSONBody (Some t) (Some (value st)))) d) =
     mkResponse 200 (task_json (mkTaskSchema task_id t st)).
Proof.
  intros I.
  destruct (select_by_id_In _ _ I) as [r E].
  destruct (select_by_id_Some _ _ _ E) as [_ K].
  pose proof (select_update_by_id task_id t (value st) _ I) as U.
  destruct d as [rows n]. cbn [tasks] in *.
  unfold response, serve, app, parse_TaskCreateSchema. cbn [json_title json_status].
  rewrite TaskStatus_of_value_value.
  unfold_route; cbn. rewrite E. cbn. rewrite K, U. cbn. rewrite U. cbn.
  unfold serialize_task, deref, from_orm. cbn.
  now rewrite TaskStatus_of_value_value.
Qed.

Lemma update_then_read_is_replacement_witness :
  response no_faults (GET_tasks 1)
    (serve no_faults (PUT_task 1 (mkJSONBody (Some "X") (Some "completed"))) two_tasks) =
  mkResponse 200 (task_json (mkTaskSchema 1 "X" completed)).
Proof.
  apply (update_then_read_is_replacement 1 "X" completed two_tasks).
  cbn. auto.
Defined.

(** C2.  In a database reached by any run of requests from one whose ids
    are below the sequence, [POST /add_task] with a title and no status
    answers with the full record: the id the sequence hands out, the title,
    and status [assigned].  That record is appended to the table, and its id
    is the id of no row of any database the run went through. *)
Theorem create_task_default_status_fresh_id (d0 : Database)
    (reqs : list (Faults * Request)) (t : string) :
  seq_above d0 ->
  response no_faults (POST_add_task (mkJSONBody (Some t) None)) (run reqs d0) =
    mkResponse 200
      (task_json (mkTaskSchema (tasks_id_seq (run reqs d0)) t assigned))
  /\ tasks (serve no_faults (POST_add_task (mkJSONBody (Some t) None)) (run reqs d0)) =
     (tasks (run reqs d0) ++ [mkRow (tasks_id_seq (run reqs d0)) t "assigned"])%list
  /\ (forall d', In d' (history reqs d0) ->
        ~ In (tasks_id_seq (run reqs d0)) (map row_id (tasks d'))).
Proof.
  intros A.
  assert (fresh : forall d', In d' (history reqs d0) ->
            ~ In (tasks_id_seq (run reqs d0)) (map row_id (tasks d'))).
  { intros d' I J. pose proof (history_below reqs d0 d' A I) as B.
    rewrite Forall_forall in B. apply in_map_iff in J.
    destruct J as [r [E Hr]]. specialize (B r Hr). lia. }
  pose proof (run_seq_above reqs d0 A) as A'.
  destruct (run reqs d0) as [rows n]. cbn [tasks tasks_id_seq] in *.
  assert (N : ~ In n (map row_id rows)).
  { intros J. unfold seq_above in A'. rewrite Forall_forall in A'.
    apply in_map_iff in J. destruct J as [r [E Hr]].
    specialize (A' r Hr). cbn in A'. lia. }
  pose proof (select_inserted n t (value assigned) rows N) as S.
  repeat split; [| |exact fresh].
  - unfold_route; cbn. rewrite S. cbn.
    unfold serialize_task, deref, from_orm. cbn.
    now rewrite TaskStatus_of_value_value.
  - unfold_route; cbn. rewrite S. cbn. reflexivity.
Qed.

Lemma create_task_default_status_fresh_id_witness :
  response no_faults (POST_add_task (mkJSONBody (Some "write spec") None))
    (run [(no_faults, DELETE_task 2)] two_tasks) =
  mkResponse 200 (task_json (mkTaskSchema 3 "write spec" assigned)).
Proof.
  apply (create_task_default_status_fresh_id two_tasks
           [(no_faults, DELETE_task 2)] "write spec").
  unfold seq_above, two_tasks. cbn. repeat constructor.
Defined.

(** C4.  For an id that has a row, in a database whose ids are below the
    sequence, [DELETE /task/{task_id}] answers with the id, title and status
    the row had before the deletion, and after any run of further requests
    [GET /tasks/{task_id}] answers 404 "Task not found". *)
Theorem delete_returns_last_state_then_404 (task_id : Z) (r : Row)
    (st : TaskStatus) (d : Database) (reqs : list (Faults * Request)) :
  seq_above d ->
  select_by_id task_id (tasks d) = Some r ->
  row_status r = value st ->
  response no_faults (DELETE_task task_id) d =
    mkResponse 200 (task_json (mkTaskSchema task_id (row_title r) st))
  /\ response no_faults (GET_tasks task_id)
       (run reqs (serve no_faults (DELETE_task task_id) d)) =
     mkResponse 404 (detail_json "Task not found").
Proof.
  intros A E V. destruct (select_by_id_Some _ _ _ E) as [I K].
  assert (D : serve no_faults (DELETE_task task_id) d =
              mkDatabase (delete_by_id task_id (tasks d)) (tasks_id_seq d)).
  { destruct d as [rows n]. unfold_route; cbn in *. rewrite E. cbn. now rewrite K. }
  split.
  - destruct d as [rows n]. unfold_route; cbn in *. rewrite E. cbn.
    unfold serialize_task, deref, from_orm. cbn.
    now rewrite V, TaskStatus_of_value_value, K.
  - assert (R : retired task_id (serve no_faults (DELETE_task task_id) d)).
    { rewrite D. split; cbn.
      - apply select_by_id_None. apply select_delete_by_id.
      - unfold seq_above in A. rewrite Forall_forall in A.
        specialize (A r I). lia. }
    apply (run_retired task_id reqs) in R. destruct R as [N _].
    apply select_by_id_None in N.
    destruct (run reqs _) as [rows' n']. unfold_route; cbn in *. now rewrite N.
Qed.

Lemma delete_returns_last_state_then_404_witness :
  response no_faults (DELETE_task 1) two_tasks =
    mkResponse 200 (task_json (mkTaskSchema 1 "write spec" assigned))
  /\ response no_faults (GET_tasks 1)
       (run [(no_faults, POST_add_task (mkJSONBody (Some "again") None))]
            (serve no_faults (DELETE_task 1) two_tasks)) =
     mkResponse 404 (detail_json "Task not found").
Proof.
  apply (delete_returns_last_state_then_404 1 (mkRow 1 "write spec" "assigned")
           assigned two_tasks
           [(no_faults, POST_add_task (mkJSONBody (Some "again") None))]).
  - unfold seq_above, two_tasks. cbn. repeat constructor.
  - reflexivity.
  - reflexivity.
Defined.

(** C6.  A [POST /add_task] or [PUT /task/{task_id}] whose body carries a
    status other than "assigned", "inprogress" and "completed" is answered
    with the 422 of a validation error; no method of the session has been
    called, and the database is left as it was. *)
Theorem invalid_status_rejected_before_storage (F : Faults) (task_id : Z)
    (body : JSONBody) (v : string) (d : Database) :
  json_status body = Some v ->
  ~ In v ["assigned"; "inprogress"; "completed"] ->
  (response F (POST_add_task body) d = mkResponse 422 validation_errors
   /\ calls (snd (app F (POST_add_task body) d)) = []
   /\ serve F (POST_add_task body) d = d)
  /\ (response F (PUT_task task_id body) d = mkResponse 422 validation_errors
      /\ calls (snd (app F (PUT_task task_id body) d)) = []
      /\ serve F (PUT_task task_id body) d = d).
Proof.
  intros S N.
  assert (P : parse_TaskCreateSchema body = None).
  { unfold parse_TaskCreateSchema. rewrite S, (TaskStatus_of_value_None v N).
    now destruct (json_title body). }
  unfold response, serve, app. rewrite P. cbn. auto.
Qed.

Lemma invalid_status_rejected_before_storage_witness :
  response no_faults (POST_add_task (mkJSONBody (Some "x") (Some "done"))) two_tasks =
    mkResponse 422 validation_errors
  /\ serve no_faults (PUT_task 1 (mkJSONBody (Some "x") (Some "done"))) two_tasks =
     two_tasks.
Proof.
  assert (N : ~ In "done" ["assigned"; "inprogress"; "completed"]).
  { cbn. intros [H|[H|[H|[]]]]; discriminate. }
  split.
  - apply (invalid_status_rejected_before_storage no_faults 1
             (mkJSONBody (Some "x") (Some "done")) "done" two_tasks eq_refl N).
  - apply (invalid_status_rejected_before_storage no_faults 1
             (mkJSONBody (Some "x") (Some "done")) "done" two_tasks eq_refl N).
Defined.

(** C7.  Every request, whatever its body and whatever the storage layer
    does to it, takes a table whose statuses are all values of [TaskStatus]
    to a table whose statuses are all values of [TaskStatus]. *)
Theorem status_always_in_enumeration (F : Faults) (req : Request) (d : Database) :
  statuses_valid d -> statuses_valid (serve F req d).
Proof.
  apply effect_statuses_valid. apply serve_effect.
Qed.

Lemma status_always_in_enumeration_witness :
  statuses_valid
    (serve no_faults (PUT_task 2 (mkJSONBody (Some "review") (Some "inprogress")))
           two_tasks).
Proof.
  apply (status_always_in_enumeration no_faults
           (PUT_task 2 (mkJSONBody (Some "review") (Some "inprogress"))) two_tasks).
  unfold statuses_valid, two_tasks. cbn.
  repeat constructor; [now exists assigned|now exists completed].
Defined.

(* ----------------------------------------------------------------- *)
(** *** Listing *)

Lemma window_incl (skip limit : Z) (rows : list Row) (r : Row) :
  In r (window skip limit rows) -> In r rows.
Proof.
  unfold window. intros H.
  rewrite <- (firstn_skipn (Z.to_nat skip) rows). apply in_or_app. right.
  rewrite <- (firstn_skipn (Z.to_nat limit) (skipn (Z.to_nat skip) rows)).
  apply in_or_app. now left.
Qed.




(** The instances loaded from rows with valid statuses serialize to the
    tasks those rows stand for. *)
Lemma serialize_tasks_loaded (rows : list Row) :
  Forall (fun r => exists st, row_status r = value st) rows ->
  forall (pre insts : list Instance) (s : Session),
    identity s = (pre ++ insts)%list ->
    map attrs insts = map of_row rows ->
    exists l, serialize_tasks s (seq (List.length pre) (List.length rows)) = Some l
              /\ map row_of_schema l = rows.
Proof.
  induction 1 as [|r rows [st V] _ IH]; intros pre insts s I A.
  - exists []. split; reflexivity.
  - destruct insts as [|i insts]; [discriminate|].
    cbn in A. injection A as A1 A2.
    destruct (IH (pre ++ [i])%list insts s) as [l [L1 L2]].
    { rewrite I, <- app_assoc. reflexivity. }
    { exact A2. }
    rewrite length_app in L1. cbn in L1.
    replace (List.length pre + 1)%nat with (S (List.length pre)) in L1 by lia.
    exists (mkTaskSchema (row_id r) (row_title r) st :: l). split.
    + cbn. rewrite L1. unfold serialize_task, deref. rewrite I.
      rewrite nth_error_app2 by lia. rewrite Nat.sub_diag. cbn.
      unfold from_orm. rewrite A1. cbn. rewrite V, TaskStatus_of_value_value.
      reflexivity.
    + cbn. rewrite L2. unfold row_of_schema. cbn. rewrite <- V. now destruct r.
Qed.

Lemma bigint_bounds (z : Z) : 0 <= z < 2 ^ 63 -> bigint z = true.
Proof.
  intros [H1 H2]. unfold bigint. apply andb_true_intro. split.
  - apply Z.leb_le. transitivity 0; [now vm_compute|exact H1].
  - now apply Z.ltb_lt.
Qed.

(** What [GET /get_tasks] answers for a window the database accepts. *)
Lemma read_tasks_response (skip limit : option Z) (d : Database) :
  statuses_valid d ->
  0 <= default 0 skip < 2 ^ 63 ->
  0 <= default 100 limit < 2 ^ 63 ->
  exists l,
    response no_faults (GET_get_tasks skip limit) d = mkResponse 200 (tasks_json l)
    /\ map row_of_schema l = window (default 0 skip) (default 100 limit) (tasks d)
    /\ serve no_faults (GET_get_tasks skip limit) d = d.
Proof.
  intros V Hs Hl.
  pose proof (bigint_bounds _ Hs) as Bs. pose proof (bigint_bounds _ Hl) as Bl.
  destruct Hs as [Hs _], Hl as [Hl _]. apply Z.ltb_ge in Hs, Hl.
  destruct d as [rows n]. unfold statuses_valid in V. cbn [tasks] in *.
  set (w := window (default 0 skip) (default 100 limit) rows).
  set (insts := map (fun i => mkInstance (attrs i) detached)
                    (map (fun r => mkInstance (of_row r) persistent) w)).
  assert (Vw : Forall (fun r => exists st, row_status r = value st) w).
  { rewrite Forall_forall in *. intros r Hr. apply V. eapply window_incl. exact Hr. }
  destruct (serialize_tasks_loaded w Vw [] insts
              (mkSession (mkDatabase rows n) insts [Query] no_faults))
    as [l [L1 L2]].
  { reflexivity. }
  { unfold insts. rewrite !map_map. reflexivity. }
  exists l. split; [|split; [exact L2|]].
  - unfold_route; cbn. rewrite Bs, Bl. cbn. rewrite Hs, Hl.
    rewrite load_all_spec. cbn. fold w. fold insts. cbn in L1. now rewrite L1.
  - unfold_route; cbn. rewrite Bs, Bl. cbn. rewrite Hs, Hl.
    rewrite load_all_spec. reflexivity.
Qed.




(* ----------------------------------------------------------------- *)
(** *** Storage failures *)

(** C9.  When the commit raises, [delete_task] on an id that has a row lets
    the storage exception leave the handler as it is: the session has not been
    rolled back by the handler, and the server answers with its own plain 500.
    [create_task] and [update_task] under the same failure call
    [db.rollback()] and raise an [HTTPException] of status 500 that quotes the
    message.  The table is the same after all three. *)
Theorem delete_commit_failure_is_unhandled (task_id : Z) (r : Row)
    (msg : string) (rf : option string) (task : TaskCreateSchema) (d : Database) :
  select_by_id task_id (tasks d) = Some r ->
  (fst (get_db (mkFaults None (Some msg) rf) (delete_task task_id) d) =
     Raise (SQLAlchemyError msg)
   /\ calls (snd (get_db (mkFaults None (Some msg) rf) (delete_task task_id) d)) =
      [Query; Delete; Commit]
   /\ response (mkFaults None (Some msg) rf) (DELETE_task task_id) d =
      internal_server_error
   /\ serve (mkFaults None (Some msg) rf) (DELETE_task task_id) d = d)
  /\ (fst (get_db (mkFaults None (Some msg) rf) (create_task task) d) =
        Raise (HTTPException 500
                 ("An error occurred while creating the task: " ++ msg)%string)
      /\ calls (snd (get_db (mkFaults None (Some msg) rf) (create_task task) d)) =
         [Add; Commit; Rollback]
      /\ bind (snd (get_db (mkFaults None (Some msg) rf) (create_task task) d)) = d)
  /\ (fst (get_db (mkFaults None (Some msg) rf) (update_task task_id task) d) =
        Raise (HTTPException 500
                 ("An error occurred while updating the task: " ++ msg)%string)
      /\ calls (snd (get_db (mkFaults None (Some msg) rf) (update_task task_id task) d)) =
         [Query; Commit; Rollback]
      /\ bind (snd (get_db (mkFaults None (Some msg) rf) (update_task task_id task) d)) = d).
Proof.
  intros E. destruct d as [rows n]. cbn [tasks] in E.
  repeat split; unfold_route; cbn; try rewrite E; cbn; reflexivity.
Qed.

Lemma delete_commit_failure_is_unhandled_witness :
  fst (get_db (mkFaults None (Some "connection lost") None) (delete_task 1) two_tasks) =
    Raise (SQLAlchemyError "connection lost")
  /\ response (mkFaults None (Some "connection lost") None) (DELETE_task 1) two_tasks =
     internal_server_error.
Proof.
  destruct (delete_commit_failure_is_unhandled 1 (mkRow 1 "write spec" "assigned")
              "connection lost" None (mkTaskCreateSchema "x" assigned) two_tasks)
    as [[H1 [_ [H2 _]]] _].
  - reflexivity.
  - split; [exact H1|exact H2].
Defined.

(* ----------------------------------------------------------------- *)
(** *** Frame *)

(** C10.  A [DELETE /task/{t}] and a [PUT /task/{t}] that succeed leave the
    tasks whose id is not [t] as they were: the same rows, with the same id,
    title and status, in the same order. *)
Theorem delete_update_frame (F : Faults) (t : Z) (body : JSONBody) (d : Database) :
  (status_code (response F (DELETE_task t) d) = 200 ->
   others t (serve F (DELETE_task t) d) = others t d)
  /\ (status_code (response F (PUT_task t body) d) = 200 ->
      others t (serve F (PUT_task t body) d) = others t d).
Proof.
  destruct F as [q c rf]. destruct d as [rows n]. split; intros _.
  - destruct q, c, rf; crunch; try reflexivity.
    all: match goal with
         | E : select_by_id _ _ = Some _ |- _ =>
             destruct (select_by_id_Some _ _ _ E) as [_ ->]
         end; apply delete_delete_by_id.
  - destruct q, c, rf; crunch; try reflexivity.
    all: match goal with
         | E : select_by_id _ _ = Some _ |- _ =>
             destruct (select_by_id_Some _ _ _ E) as [_ ->]
         end; apply delete_update_by_id.
Qed.

Lemma delete_update_frame_witness :
  others 1 (serve no_faults (DELETE_task 1) two_tasks) = others 1 two_tasks
  /\ others 1 (serve no_faults
                 (PUT_task 1 (mkJSONBody (Some "X") (Some "completed"))) two_tasks) =
     others 1 two_tasks.
Proof.
  split.
  - apply (proj1 (delete_update_frame no_faults 1 (mkJSONBody None None) two_tasks)).
    reflexivity.
  - apply (proj2 (delete_update_frame no_faults 1
                    (mkJSONBody (Some "X") (Some "completed")) two_tasks)).
    reflexivity.
Defined.

(* ================================================================= *)
(** ** Further properties of the handlers *)

(* ----------------------------------------------------------------- *)
(** *** More on the table operations *)

Lemma update_by_id_unchanged (pk : Z) (t st : string) (rows : list Row) :
  Forall (fun r => changes pk t st r = false) rows ->
  update_by_id pk t st rows = rows.
Proof.
  unfold update_by_id. induction 1 as [|r rows C _ IH]; cbn.
  - reflexivity.
  - rewrite C. cbn. now rewrite IH.
Qed.

Lemma update_by_id_absent (pk : Z) (t st : string) (rows : list Row) :
  ~ In pk (map row_id rows) -> update_by_id pk t st rows = rows.
Proof.
  intros N. apply update_by_id_unchanged. rewrite Forall_forall. intros r Hr.
  destruct (changes pk t st r) eqn:C; [|reflexivity].
  exfalso. apply N. apply in_map_iff. exists r.
  split; [now apply (changes_true pk t st)|exact Hr].
Qed.

Lemma delete_by_id_absent (pk : Z) (rows : list Row) :
  ~ In pk (map row_id rows) -> delete_by_id pk rows = rows.
Proof.
  unfold delete_by_id. induction rows as [|r rows IH]; cbn; intros N.
  - reflexivity.
  - destruct (Z.eqb_spec (row_id r) pk) as [e|ne]; [tauto|].
    cbn. rewrite IH by tauto. reflexivity.
Qed.

Lemma update_update_by_id (pk : Z) (t st : string) (rows : list Row) :
  update_by_id pk t st (update_by_id pk t st rows) = update_by_id pk t st rows.
Proof.
  apply update_by_id_unchanged. rewrite Forall_forall. intros r Hr.
  destruct (In_update_by_id _ _ _ _ _ Hr) as [[_ C]|[-> _]]; [exact C|].
  apply changes_new.
Qed.

Lemma delete_inserted (pk : Z) (t st : string) (rows : list Row) :
  ~ In pk (map row_id rows) ->
  delete_by_id pk (rows ++ [mkRow pk t st]) = rows.
Proof.
  intros N. unfold delete_by_id. rewrite filter_app. cbn.
  rewrite Z.eqb_refl. cbn. rewrite app_nil_r. now apply delete_by_id_absent.
Qed.

Lemma seq_above_fresh (d : Database) :
  seq_above d -> ~ In (tasks_id_seq d) (map row_id (tasks d)).
Proof.
  unfold seq_above. intros A J. rewrite Forall_forall in A.
  apply in_map_iff in J. destruct J as [r [E Hr]]. specialize (A r Hr). lia.
Qed.

(** What a request does to the database when the storage layer does not
    fail. *)
Lemma serve_delete (task_id : Z) (d : Database) :
  serve no_faults (DELETE_task task_id) d =
  mkDatabase (delete_by_id task_id (tasks d)) (tasks_id_seq d).
Proof.
  destruct d as [rows n]. cbn [tasks tasks_id_seq].
  destruct (select_by_id task_id rows) as [r|] eqn:E.
  - destruct (select_by_id_Some _ _ _ E) as [_ K].
    unfold_route; cbn. rewrite E. cbn. now rewrite K.
  - unfold_route; cbn. rewrite E. cbn.
    apply select_by_id_None in E. now rewrite delete_by_id_absent.
Qed.

Lemma serve_update (task_id : Z) (body : JSONBody) (task : TaskCreateSchema)
    (d : Database) :
  parse_TaskCreateSchema body = Some task ->
  serve no_faults (PUT_task task_id body) d =
  mkDatabase
    (update_by_id task_id (TaskCreateSchema_title task)
       (value (TaskCreateSchema_status task)) (tasks d))
    (tasks_id_seq d).
Proof.
  intros P. destruct d as [rows n]. cbn [tasks tasks_id_seq].
  unfold serve, app. rewrite P.
  destruct (select_by_id task_id rows) as [r|] eqn:E.
  - destruct (select_by_id_Some _ _ _ E) as [I K].
    assert (J : In task_id (map row_id rows)).
    { rewrite <- K. now apply in_map. }
    pose proof (select_update_by_id task_id (TaskCreateSchema_title task)
                  (value (TaskCreateSchema_status task)) rows J) as U.
    unfold_route; cbn. rewrite E. cbn. rewrite K, U. cbn. reflexivity.
  - unfold_route; cbn. rewrite E. cbn.
    apply select_by_id_None in E. now rewrite update_by_id_absent.
Qed.

Lemma serve_create (body : JSONBody) (task : TaskCreateSchema) (d : Database) :
  parse_TaskCreateSchema body = Some task ->
  serve no_faults (POST_add_task body) d =
  mkDatabase
    (tasks d ++ [mkRow (tasks_id_seq d) (TaskCreateSchema_title task)
                       (value (TaskCreateSchema_status task))])
    (tasks_id_seq d + 1).
Proof.
  intros P. destruct d as [rows n]. cbn [tasks tasks_id_seq].
  unfold serve, app. rewrite P. crunch; reflexivity.
Qed.

(* ----------------------------------------------------------------- *)
(** *** Serialization *)

(** X1.  A row is answered as the task [t] exactly when it is the row [t]
    stands for: [from_orm] after loading inverts [row_of_schema], and a row
    whose status is not a value of [TaskStatus] is answered as no task at
    all. *)
Theorem from_orm_of_row_iff (r : Row) (t : TaskSchema) :
  from_orm (of_row r) = Some t <-> r = row_of_schema t.
Proof.
  unfold from_orm, of_row, row_of_schema. cbn. split.
  - destruct (TaskStatus_of_value (row_status r)) as [st|] eqn:E; [|discriminate].
    intros [= <-]. cbn. apply TaskStatus_of_value_Some in E.
    rewrite <- E. now destruct r.
  - intros ->. cbn. rewrite TaskStatus_of_value_value. now destruct t.
Qed.

(* ----------------------------------------------------------------- *)
(** *** Deleting *)

(** X2.  [DELETE /task/{task_id}] for an id without a row answers 404
    "Task not found"; the handler has only queried, and the database is left
    as it was. *)
Theorem delete_task_missing_row_is_404 (task_id : Z) (d : Database) :
  ~ In task_id (map row_id (tasks d)) ->
  response no_faults (DELETE_task task_id) d =
    mkResponse 404 (detail_json "Task not found")
  /\ calls (snd (app no_faults (DELETE_task task_id) d)) = [Query]
  /\ serve no_faults (DELETE_task task_id) d = d.
Proof.
  intros N. apply select_by_id_None in N. destruct d as [rows n].
  unfold_route; cbn in *. rewrite N. cbn. auto.
Qed.

Lemma delete_task_missing_row_is_404_witness :
  response no_faults (DELETE_task 7) two_tasks =
    mkResponse 404 (detail_json "Task not found").
Proof.
  apply (delete_task_missing_row_is_404 7 two_tasks).
  cbn. intros [H|[H|[]]]; discriminate.
Defined.

(** X3.  A second [DELETE /task/{task_id}] is answered 404 and changes
    nothing, whether or not the first one found a row. *)
Theorem delete_task_twice (task_id : Z) (d : Database) :
  response no_faults (DELETE_task task_id) (serve no_faults (DELETE_task task_id) d) =
    mkResponse 404 (detail_json "Task not found")
  /\ serve no_faults (DELETE_task task_id) (serve no_faults (DELETE_task task_id) d) =
     serve no_faults (DELETE_task task_id) d.
Proof.
  rewrite !serve_delete. cbn [tasks tasks_id_seq].
  rewrite delete_delete_by_id. split; [|reflexivity].
  pose proof (select_delete_by_id task_id (tasks d)) as N.
  unfold_route; cbn. rewrite N. reflexivity.
Qed.

(* ----------------------------------------------------------------- *)
(** *** Creating *)

(** X4.  In a database whose ids are below the sequence,
    [POST /add_task] with a title and a status answers with the record of the
    next id, that title and that status; a [GET /tasks/{id}] for the id
    answers the same record, and the sequence has moved on by one. *)
Theorem create_task_then_read (t : string) (st : TaskStatus) (d : Database) :
  seq_above d ->
  response no_faults (POST_add_task (mkJSONBody (Some t) (Some (value st)))) d =
    mkResponse 200 (task_json (mkTaskSchema (tasks_id_seq d) t st))
  /\ response no_faults (GET_tasks (tasks_id_seq d))
       (serve no_faults (POST_add_task (mkJSONBody (Some t) (Some (value st)))) d) =
     mkResponse 200 (task_json (mkTaskSchema (tasks_id_seq d) t st))
  /\ tasks_id_seq
       (serve no_faults (POST_add_task (mkJSONBody (Some t) (Some (value st)))) d) =
     tasks_id_seq d + 1.
Proof.
  intros A. pose proof (seq_above_fresh d A) as N.
  assert (P : parse_TaskCreateSchema (mkJSONBody (Some t) (Some (value st))) =
              Some (mkTaskCreateSchema t st)).
  { unfold parse_TaskCreateSchema. cbn [json_title json_status].
    now rewrite TaskStatus_of_value_value. }
  rewrite (serve_create _ _ d P). cbn [TaskCreateSchema_title TaskCreateSchema_status].
  destruct d as [rows n]. cbn [tasks tasks_id_seq] in *.
  pose proof (select_inserted n t (value st) rows N) as S.
  repeat split.
  - unfold response, app. rewrite P. unfold_route; cbn. rewrite S. cbn.
    unfold serialize_task, deref, from_orm. cbn.
    now rewrite TaskStatus_of_value_value.
  - unfold_route; cbn. rewrite S. cbn.
    unfold serialize_task, deref, from_orm. cbn.
    now rewrite TaskStatus_of_value_value.
Qed.

Lemma create_task_then_read_witness :
  response no_faults (GET_tasks 3)
    (serve no_faults (POST_add_task (mkJSONBody (Some "ship") (Some "inprogress")))
           two_tasks) =
  mkResponse 200 (task_json (mkTaskSchema 3 "ship" inprogress)).
Proof.
  apply (create_task_then_read "ship" inprogress two_tasks).
  unfold seq_above, two_tasks. cbn. repeat constructor.
Defined.

(** X5.  In a database whose ids are below the sequence, creating a task
    and deleting it again gives back the table as it was; the id is spent,
    the sequence stays one further. *)
Theorem create_then_delete_restores_table (body : JSONBody)
    (task : TaskCreateSchema) (d : Database) :
  seq_above d ->
  parse_TaskCreateSchema body = Some task ->
  serve no_faults (DELETE_task (tasks_id_seq d))
        (serve no_faults (POST_add_task body) d) =
  mkDatabase (tasks d) (tasks_id_seq d + 1).
Proof.
  intros A P. rewrite serve_delete, (serve_create body task d P).
  cbn [tasks tasks_id_seq]. rewrite delete_inserted; [reflexivity|].
  now apply seq_above_fresh.
Qed.

Lemma create_then_delete_restores_table_witness :
  serve no_faults (DELETE_task 3)
        (serve no_faults (POST_add_task (mkJSONBody (Some "ship") None)) two_tasks) =
  mkDatabase (tasks two_tasks) 4.
Proof.
  apply (create_then_delete_restores_table (mkJSONBody (Some "ship") None)
           (mkTaskCreateSchema "ship" assigned) two_tasks).
  - unfold seq_above, two_tasks. cbn. repeat constructor.
  - reflexivity.
Defined.

(* ----------------------------------------------------------------- *)
(** *** Updating *)

(** X6.  [PUT /task/{task_id}] validates its body against
    [TaskCreateSchema], the schema of creation: a body without a status is
    accepted, and it sets the status of the row to "assigned", whatever it
    was. *)
Theorem update_task_omitted_status_is_assigned (task_id : Z) (t : string)
    (d : Database) :
  In task_id (map row_id (tasks d)) ->
  response no_faults (PUT_task task_id (mkJSONBody (Some t) None)) d =
    mkResponse 200 (task_json (mkTaskSchema task_id t assigned))
  /\ select_by_id task_id
       (tasks (serve no_faults (PUT_task task_id (mkJSONBody (Some t) None)) d)) =
     Some (mkRow task_id t "assigned").
Proof.
  intros I.
  pose proof (select_update_by_id task_id t (value assigned) _ I) as U.
  rewrite (serve_update task_id (mkJSONBody (Some t) None)
             (mkTaskCreateSchema t assigned) d eq_refl).
  cbn [tasks TaskCreateSchema_title TaskCreateSchema_status].
  split; [|exact U].
  destruct (select_by_id_In _ _ I) as [r E].
  destruct (select_by_id_Some _ _ _ E) as [_ K].
  destruct d as [rows n]. cbn [tasks] in *.
  unfold_route; cbn. rewrite E. cbn. rewrite K, U. cbn.
  unfold serialize_task, deref, from_orm. cbn.
  now rewrite TaskStatus_of_value_value.
Qed.

Lemma update_task_omitted_status_is_assigned_witness :
  select_by_id 2
    (tasks (serve no_faults (PUT_task 2 (mkJSONBody (Some "review") None)) two_tasks)) =
  Some (mkRow 2 "review" "assigned").
Proof.
  apply (update_task_omitted_status_is_assigned 2 "review" two_tasks).
  cbn. auto.
Defined.


(** X8.  Repeating a [PUT /task/{task_id}] with the same body changes
    nothing more: the database after the second is the database after the
    first. *)
Theorem update_task_idempotent (task_id : Z) (body : JSONBody) (d : Database) :
  serve no_faults (PUT_task task_id body)
        (serve no_faults (PUT_task task_id body) d) =
  serve no_faults (PUT_task task_id body) d.
Proof.
  destruct (parse_TaskCreateSchema body) as [task|] eqn:P.
  - rewrite !(serve_update task_id body task _ P). cbn [tasks tasks_id_seq].
    now rewrite update_update_by_id.
  - unfold serve, app. rewrite P. cbn. rewrite ?P. reflexivity.
Qed.

(* ----------------------------------------------------------------- *)
(** *** Failures after the commit *)

(** X9.  When the commit of [create_task] succeeds and the refresh that
    follows raises, the answer is the 500 of a failed creation, and the task
    has been inserted all the same: the rollback in the [except] branch comes
    after the commit. *)
Theorem create_task_refresh_failure_keeps_row (q : option string) (msg : string)
    (body : JSONBody) (task : TaskCreateSchema) (d : Database) :
  parse_TaskCreateSchema body = Some task ->
  response (mkFaults q None (Some msg)) (POST_add_task body) d =
    mkResponse 500
      (detail_json ("An error occurred while creating the task: " ++ msg)%string)
  /\ calls (snd (app (mkFaults q None (Some msg)) (POST_add_task body) d)) =
     [Add; Commit; Refresh; Rollback]
  /\ serve (mkFaults q None (Some msg)) (POST_add_task body) d =
     mkDatabase
       (tasks d ++ [mkRow (tasks_id_seq d) (TaskCreateSchema_title task)
                          (value (TaskCreateSchema_status task))])
       (tasks_id_seq d + 1).
Proof.
  intros P. destruct d as [rows n]. unfold response, serve, app. rewrite P.
  unfold_route; cbn. auto.
Qed.

Lemma create_task_refresh_failure_keeps_row_witness :
  tasks (serve (mkFaults None None (Some "connection lost"))
               (POST_add_task (mkJSONBody (Some "ship") None)) create_all) =
  [mkRow 1 "ship" "assigned"].
Proof.
  pose proof (create_task_refresh_failure_keeps_row None "connection lost"
                (mkJSONBody (Some "ship") None) (mkTaskCreateSchema "ship" assigned)
                create_all eq_refl) as [_ [_ H]].
  rewrite H. reflexivity.
Defined.

(** X10.  The same for [update_task]: when the row exists, the commit
    succeeds and the refresh raises, the answer is the 500 of a failed update
    and the row carries the new title and status. *)
Theorem update_task_refresh_failure_keeps_update (task_id : Z) (r : Row)
    (msg : string) (body : JSONBody) (task : TaskCreateSchema) (d : Database) :
  select_by_id task_id (tasks d) = Some r ->
  parse_TaskCreateSchema body = Some task ->
  response (mkFaults None None (Some msg)) (PUT_task task_id body) d =
    mkResponse 500
      (detail_json ("An error occurred while updating the task: " ++ msg)%string)
  /\ calls (snd (app (mkFaults None None (Some msg)) (PUT_task task_id body) d)) =
     [Query; Commit; Refresh; Rollback]
  /\ serve (mkFaults None None (Some msg)) (PUT_task task_id body) d =
     mkDatabase
       (update_by_id task_id (TaskCreateSchema_title task)
          (value (TaskCreateSchema_status task)) (tasks d))
       (tasks_id_seq d).
Proof.
  intros E P. destruct (select_by_id_Some _ _ _ E) as [_ K].
  destruct d as [rows n]. cbn [tasks] in E.
  unfold response, serve, app. rewrite P.
  unfold_route; cbn. rewrite E. cbn. rewrite K. auto.
Qed.

Lemma update_task_refresh_failure_keeps_update_witness :
  tasks (serve (mkFaults None None (Some "connection lost"))
               (PUT_task 1 (mkJSONBody (Some "X") (Some "completed"))) two_tasks) =
  [mkRow 2 "review" "completed"; mkRow 1 "X" "completed"].
Proof.
  pose proof (update_task_refresh_failure_keeps_update 1
                (mkRow 1 "write spec" "assigned") "connection lost"
                (mkJSONBody (Some "X") (Some "completed"))
                (mkTaskCreateSchema "X" completed) two_tasks eq_refl eq_refl)
    as [_ [_ H]].
  rewrite H. reflexivity.
Defined.

(* ----------------------------------------------------------------- *)
(** *** Failures of the query *)

(** X11.  When the query raises, the handlers without a [try] let the
    exception out: [read_tasks], [read_task] and [delete_task] end in the
    server's plain 500 after the one call, with no rollback.  [update_task]
    catches it, rolls back and answers the 500 of a failed update.  The
    database is the same after all four. *)
Theorem query_failure_by_handler (msg : string) (c rf : option string)
    (skip limit : option Z) (task_id : Z) (body : JSONBody)
    (task : TaskCreateSchema) (d : Database) :
  parse_TaskCreateSchema body = Some task ->
  (app (mkFaults (Some msg) c rf) (GET_get_tasks skip limit) d =
     (internal_server_error, mkSession d [] [Query] (mkFaults (Some msg) c rf)))
  /\ (app (mkFaults (Some msg) c rf) (GET_tasks task_id) d =
        (internal_server_error, mkSession d [] [Query] (mkFaults (Some msg) c rf)))
  /\ (app (mkFaults (Some msg) c rf) (DELETE_task task_id) d =
        (internal_server_error, mkSession d [] [Query] (mkFaults (Some msg) c rf)))
  /\ (app (mkFaults (Some msg) c rf) (PUT_task task_id body) d =
        (mkResponse 500
           (detail_json ("An error occurred while updating the task: " ++ msg)%string),
         mkSession d [] [Query; Rollback] (mkFaults (Some msg) c rf))).
Proof.
  intros P. destruct d as [rows n]. unfold app. rewrite P.
  repeat split; unfold_route; cbn; reflexivity.
Qed.

Lemma query_failure_by_handler_witness :
  response (mkFaults (Some "connection lost") None None) (GET_tasks 1) two_tasks =
    internal_server_error
  /\ response (mkFaults (Some "connection lost") None None)
       (PUT_task 1 (mkJSONBody (Some "X") None)) two_tasks =
     mkResponse 500
       (detail_json "An error occurred while updating the task: connection lost").
Proof.
  pose proof (query_failure_by_handler "connection lost" None None None None 1
                (mkJSONBody (Some "X") None) (mkTaskCreateSchema "X" assigned)
                two_tasks eq_refl) as [_ [H1 [_ H2]]].
  unfold response. rewrite H1, H2. split; reflexivity.
Defined.

(* ----------------------------------------------------------------- *)
(** *** Reading *)

(** X12.  [GET /get_tasks] and [GET /tasks/{task_id}] never change the
    database, whatever their parameters and whatever the storage layer does,
    and each makes one query and no other call on the session. *)
Theorem reads_leave_database_alone (F : Faults) (skip limit : option Z)
    (task_id : Z) (d : Database) :
  (serve F (GET_get_tasks skip limit) d = d
   /\ calls (snd (app F (GET_get_tasks skip limit) d)) = [Query])
  /\ (serve F (GET_tasks task_id) d = d
      /\ calls (snd (app F (GET_tasks task_id) d)) = [Query]).
Proof.
  destruct F as [q c rf]. destruct d as [rows n].
  repeat split; destruct q; crunch; reflexivity.
Qed.

(** X13.  A negative [skip] or [limit] is not refused by the handler: it
    reaches the range query, the database rejects it, and the request ends in
    the server's plain 500, the table untouched. *)
Theorem read_tasks_negative_window (skip limit : option Z) (d : Database) :
  default 0 skip < 0 \/ default 100 limit < 0 ->
  response no_faults (GET_get_tasks skip limit) d = internal_server_error
  /\ serve no_faults (GET_get_tasks skip limit) d = d.
Proof.
  intros H. destruct d as [rows n].
  unfold_route; cbn.
  destruct (bigint (default 0 skip) && bigint (default 100 limit)); cbn; [|auto].
  destruct (Z.ltb_spec (default 0 skip) 0) as [Hs|Hs]; cbn; [auto|].
  destruct (Z.ltb_spec (default 100 limit) 0) as [Hl|Hl]; cbn; [auto|].
  lia.
Qed.

Lemma read_tasks_negative_window_witness :
  response no_faults (GET_get_tasks None (Some (-5))) two_tasks =
  internal_server_error.
Proof.
  apply (read_tasks_negative_window None (Some (-5)) two_tasks).
  right. unfold default. lia.
Defined.

(** X14.  For a [skip] and a [limit] that are not negative and are
    [bigint]s, [GET /get_tasks] answers with at most [limit] tasks: as many as
    the table holds after the first [skip], cut at [limit].  In particular
    such a [skip] at or beyond the end, or a [limit] of 0, gives the empty
    list, not an error. *)
Theorem read_tasks_page_size (skip limit : option Z) (d : Database) :
  statuses_valid d ->
  0 <= default 0 skip < 2 ^ 63 ->
  0 <= default 100 limit < 2 ^ 63 ->
  exists l,
    response no_faults (GET_get_tasks skip limit) d = mkResponse 200 (tasks_json l)
    /\ List.length l =
       Nat.min (Z.to_nat (default 100 limit))
               (List.length (tasks d) - Z.to_nat (default 0 skip)).
Proof.
  intros V Hs Hl.
  destruct (read_tasks_response skip limit d V Hs Hl) as [l [R [W _]]].
  exists l. split; [exact R|].
  rewrite <- (length_map row_of_schema l), W.
  unfold window. now rewrite length_firstn, length_skipn.
Qed.

Lemma read_tasks_page_size_witness :
  exists l,
    response no_faults (GET_get_tasks (Some 5) None) two_tasks =
      mkResponse 200 (tasks_json l)
    /\ List.length l = 0%nat.
Proof.
  destruct (read_tasks_page_size (Some 5) None two_tasks) as [l [R L]].
  - unfold statuses_valid, two_tasks. cbn.
    repeat constructor; [now exists assigned|now exists completed].
  - unfold default. split; [lia|reflexivity].
  - unfold default. split; [lia|reflexivity].
  - exists l. split; [exact R|exact L].
Defined.

Lemma value_inj (a b : TaskStatus) : value a = value b -> a = b.
Proof.
  intros H. apply (f_equal TaskStatus_of_value) in H.
  rewrite !TaskStatus_of_value_value in H. now injection H.
Qed.

Lemma row_of_schema_inj (a b : TaskSchema) :
  row_of_schema a = row_of_schema b -> a = b.
Proof.
  destruct a as [i t s], b as [i' t' s']. unfold row_of_schema. cbn.
  intros [= -> -> H]. now rewrite (value_inj _ _ H).
Qed.

Lemma map_row_of_schema_inj (l l' : list TaskSchema) :
  map row_of_schema l = map row_of_schema l' -> l = l'.
Proof.
  revert l'. induction l as [|a l IH]; intros [|b l']; cbn; try discriminate.
  - reflexivity.
  - intros H.
    assert (H1 : row_of_schema a = row_of_schema b) by congruence.
    assert (H2 : map row_of_schema l = map row_of_schema l') by congruence.
    now rewrite (row_of_schema_inj _ _ H1), (IH _ H2).
Qed.

Lemma window_all (limit : Z) (rows : list Row) :
  (List.length rows <= Z.to_nat limit)%nat -> window 0 limit rows = rows.
Proof. intros H. unfold window. cbn. now apply firstn_all2. Qed.

(** X15.  While the table holds fewer than a hundred tasks,
    [GET /get_tasks] without parameters lists all of them, and after a
    [POST /add_task] it lists the same tasks followed by the new one. *)
Theorem read_tasks_after_create (body : JSONBody) (task : TaskCreateSchema)
    (d : Database) :
  statuses_valid d ->
  parse_TaskCreateSchema body = Some task ->
  (List.length (tasks d) < 100)%nat ->
  exists l,
    map row_of_schema l = tasks d
    /\ response no_faults (GET_get_tasks None None) d = mkResponse 200 (tasks_json l)
    /\ response no_faults (GET_get_tasks None None)
         (serve no_faults (POST_add_task body) d) =
       mkResponse 200
         (tasks_json
            (l ++ [mkTaskSchema (tasks_id_seq d) (TaskCreateSchema_title task)
                                (TaskCreateSchema_status task)])).
Proof.
  intros V P L.
  destruct (read_tasks_response None None d V) as [l [R [W _]]];
    [unfold default; lia|unfold default; lia|].
  unfold default in W. rewrite window_all in W by (cbn; lia).
  exists l. split; [exact W|]. split; [exact R|].
  assert (V' : statuses_valid (serve no_faults (POST_add_task body) d)).
  { apply (effect_statuses_valid d); [apply serve_effect|exact V]. }
  destruct (read_tasks_response None None _ V') as [l' [R' [W' _]]];
    [unfold default; lia|unfold default; lia|].
  rewrite R'. do 2 f_equal. apply map_row_of_schema_inj.
  rewrite W'. unfold default. rewrite (serve_create body task d P).
  cbn [tasks]. rewrite window_all.
  - rewrite map_app, W. reflexivity.
  - rewrite length_app. cbn. lia.
Qed.

Lemma read_tasks_after_create_witness :
  exists l,
    map row_of_schema l = tasks two_tasks
    /\ response no_faults (GET_get_tasks None None)
         (serve no_faults (POST_add_task (mkJSONBody (Some "ship") None)) two_tasks) =
       mkResponse 200 (tasks_json (l ++ [mkTaskSchema 3 "ship" assigned])).
Proof.
  destruct (read_tasks_after_create (mkJSONBody (Some "ship") None)
              (mkTaskCreateSchema "ship" assigned) two_tasks) as [l [W [_ R]]].
  - unfold statuses_valid, two_tasks. cbn.
    repeat constructor; [now exists assigned|now exists completed].
  - reflexivity.
  - cbn. lia.
  - exists l. split; [exact W|exact R].
Defined.

(* ----------------------------------------------------------------- *)
(** *** The primary key *)

Lemma effect_ids_positive (d d' : Database) :
  effect d d' ->
  1 <= tasks_id_seq d /\ Forall (fun r => 1 <= row_id r) (tasks d) ->
  1 <= tasks_id_seq d' /\ Forall (fun r => 1 <= row_id r) (tasks d').
Proof.
  intros H [B A]. inversion H; subst; cbn.
  - tauto.
  - split; [lia|]. apply Forall_app. split; [exact A|].
    constructor; [exact B|constructor].
  - split; [exact B|]. rewrite Forall_forall in *. intros r Hr.
    destruct (In_update_by_id _ _ _ _ _ Hr) as [[I _]|[-> I]]; [now apply A|].
    apply in_map_iff in I. destruct I as [r0 [E Hr0]].
    specialize (A r0 Hr0). cbn. lia.
  - split; [exact B|]. rewrite Forall_forall in *. intros r Hr.
    apply A. eapply In_delete_by_id. exact Hr.
Qed.

Lemma run_ids_positive (reqs : list (Faults * Request)) (d : Database) :
  1 <= tasks_id_seq d /\ Forall (fun r => 1 <= row_id r) (tasks d) ->
  1 <= tasks_id_seq (run reqs d)
  /\ Forall (fun r => 1 <= row_id r) (tasks (run reqs d)).
Proof.
  revert d. induction reqs as [|[F req] reqs IH]; intros d W; cbn.
  - exact W.
  - apply IH. eapply effect_ids_positive; [apply serve_effect|exact W].
Qed.

(** X16.  In every database the service reaches from the empty table, by
    any requests under any storage failures, no two rows have the same id,
    and every id is at least 1 and below the next value of the sequence. *)
Theorem reachable_ids_unique_and_bounded (reqs : list (Faults * Request)) :
  NoDup (map row_id (tasks (run reqs create_all)))
  /\ Forall (fun r => 1 <= row_id r < tasks_id_seq (run reqs create_all))
            (tasks (run reqs create_all)).
Proof.
  destruct (run_well_formed reqs create_all create_all_well_formed) as [A [_ U]].
  destruct (run_ids_positive reqs create_all) as [_ B].
  { split; [cbn; lia|constructor]. }
  split; [exact U|].
  unfold seq_above in A. rewrite Forall_forall in *. intros r Hr.
  specialize (A r Hr). specialize (B r Hr). cbn in *. lia.
Qed.

(* ----------------------------------------------------------------- *)
(** *** Status codes *)

Ltac split_matches :=
  repeat match goal with
         | |- context [match ?x with _ => _ end] => destruct x; cbn
         end.

(** X17.  The status codes of the five routes that reach the table, for a
    request as [Request] has it (integer path and query parameters, body
    fields absent or strings), whatever the storage layer does: creation and
    update answer 200, 422 or 500, and never 404, so the update of an absent
    task does not tell the client that the task is missing; the list answers
    200 or 500; reading and deleting one task answer 200, 404 or 500. *)
Theorem status_codes_by_route (F : Faults) (body : JSONBody)
    (skip limit : option Z) (task_id : Z) (d : Database) :
  In (status_code (response F (POST_add_task body) d)) [200; 422; 500]
  /\ In (status_code (response F (PUT_task task_id body) d)) [200; 422; 500]
  /\ In (status_code (response F (GET_get_tasks skip limit) d)) [200; 500]
  /\ In (status_code (response F (GET_tasks task_id) d)) [200; 404; 500]
  /\ In (status_code (response F (DELETE_task task_id) d)) [200; 404; 500].
Proof.
  destruct F as [q c rf]. destruct d as [rows n].
  repeat split; destruct q, c, rf; crunch; split_matches; auto 6.
Qed.

Lemma parse_TaskCreateSchema_None (body : JSONBody) :
  parse_TaskCreateSchema body = None <->
  json_title body = None
  \/ exists v, json_status body = Some v
               /\ ~ In v ["assigned"; "inprogress"; "completed"].
Proof.
  unfold parse_TaskCreateSchema. split.
  - destruct (json_title body) as [t|]; [|now left].
    destruct (json_status body) as [v|]; [|discriminate].
    destruct (TaskStatus_of_value v) as [st|] eqn:E; [discriminate|].
    intros _. right. exists v. split; [reflexivity|].
    intros I. assert (exists st, v = value st) as [st ->].
    { cbn in I. destruct I as [<-|[<-|[<-|[]]]];
        [now exists assigned|now exists inprogress|now exists completed]. }
    rewrite TaskStatus_of_value_value in E. discriminate.
  - intros [->|[v [-> N]]]; [reflexivity|].
    rewrite (TaskStatus_of_value_None v N). now destruct (json_title body).
Qed.

(** X18.  For a body in which the title and the status are each absent
    or a string, [POST /add_task] and [PUT /task/{task_id}] answer 422 exactly
    when the title is absent or the status is a string other than "assigned",
    "inprogress" and "completed"; such a body with a title and no status
    passes.  Bodies that give a field [null] or a value that is not a string
    are not covered. *)
Theorem unprocessable_iff_invalid_body (F : Faults) (task_id : Z)
    (body : JSONBody) (d : Database) :
  (status_code (response F (POST_add_task body) d) = 422 <->
   json_title body = None
   \/ exists v, json_status body = Some v
                /\ ~ In v ["assigned"; "inprogress"; "completed"])
  /\ (status_code (response F (PUT_task task_id body) d) = 422 <->
      json_title body = None
      \/ exists v, json_status body = Some v
                   /\ ~ In v ["assigned"; "inprogress"; "completed"]).
Proof.
  rewrite <- parse_TaskCreateSchema_None.
  destruct F as [q c rf]. destruct d as [rows n].
  split; (split; [|intros P; unfold response, app; rewrite P; reflexivity]).
  all: destruct (parse_TaskCreateSchema body) as [task|] eqn:P; [|reflexivity].
  all: unfold response, app; rewrite P.
  all: destruct q, c, rf; crunch; split_matches; discriminate.
Qed.

(* ----------------------------------------------------------------- *)
(** *** Deleting one row *)

Lemma length_delete_by_id (pk : Z) (rows : list Row) :
  NoDup (map row_id rows) -> In pk (map row_id rows) ->
  S (List.length (delete_by_id pk rows)) = List.length rows.
Proof.
  unfold delete_by_id. induction rows as [|r rows IH]; cbn; intros D I.
  - contradiction.
  - inversion D as [|? ? N D']; subst.
    destruct (Z.eqb_spec (row_id r) pk) as [e|ne]; cbn.
    + subst pk. pose proof (delete_by_id_absent (row_id r) rows N) as A.
      unfold delete_by_id in A. now rewrite A.
    + f_equal. apply IH; [exact D'|]. destruct I as [I|I]; [contradiction|exact I].
Qed.

(** X19.  Where ids are unique, a [DELETE /task/{task_id}] for an id that
    has a row removes that one row and nothing else: the table is one row
    shorter, the id is gone from it, and the sequence is where it was, so the
    id is not handed out again. *)
Theorem delete_task_removes_one_row (task_id : Z) (d : Database) :
  NoDup (map row_id (tasks d)) ->
  In task_id (map row_id (tasks d)) ->
  S (List.length (tasks (serve no_faults (DELETE_task task_id) d))) =
    List.length (tasks d)
  /\ ~ In task_id (map row_id (tasks (serve no_faults (DELETE_task task_id) d)))
  /\ tasks_id_seq (serve no_faults (DELETE_task task_id) d) = tasks_id_seq d.
Proof.
  intros D I. rewrite serve_delete. cbn [tasks tasks_id_seq].
  split; [now apply length_delete_by_id|]. split; [|reflexivity].
  apply select_by_id_None, select_delete_by_id.
Qed.

Lemma delete_task_removes_one_row_witness :
  S (List.length (tasks (serve no_faults (DELETE_task 1) two_tasks))) = 2%nat.
Proof.
  apply (delete_task_removes_one_row 1 two_tasks).
  - unfold two_tasks. cbn. repeat constructor; cbn; intuition discriminate.
  - cbn. auto.
Defined.
